(** * generate_word.py: a shallow embedding and its verification

    The program is one straight-line Python script.  It draws a small icon
    with PIL, saves it, assembles a Word document with python-docx (embedding
    the saved icon by path), saves the document and prints a confirmation.

    The script is embedded as a computation in a reader/state/exception
    monad [Py].  The state is the part of the world the script can touch:
    the file system, standard output, and the heap of library objects it
    holds references to (the PIL image, the document).  The environment
    decides what the script cannot: which modules are installed, which
    paths can be written, which paragraph styles the default template
    defines.  The two libraries are external to the repository; their calls
    are modelled at the level of their documented API. *)

From Stdlib Require Import ZArith QArith.
From stdpp Require Import base gmap strings list.

Close Scope Q_scope.
Local Open Scope string_scope.
Local Open Scope Z_scope.

(** ** PIL: images as a background and an ordered list of strokes *)

Definition color : Type := Z * Z * Z.

Record Stroke := {
  stroke_xy : Z * Z * Z * Z;      (* (x0, y0, x1, y1) *)
  stroke_fill : color;
  stroke_width : Z
}.

Record Image := {
  im_mode : string;
  im_size : Z * Z;                (* (width, height) in pixels *)
  im_ground : color;              (* colour every pixel is created with *)
  im_strokes : list Stroke        (* line segments, in drawing order *)
}.

#[global] Instance Stroke_eq_dec : EqDecision Stroke.
Proof. solve_decision. Defined.
#[global] Instance Image_eq_dec : EqDecision Image.
Proof. solve_decision. Defined.

(** ** python-docx: the document as an ordered list of content blocks *)

Record Run := {
  run_text : string;
  run_bold : option bool          (* None: inherited; Some b: set *)
}.

Inductive Block :=
| Heading (level : Z) (runs : list Run)
| Paragraph (style : option string) (runs : list Run)
| Picture (src : string) (img : Image) (width : option Z).

Record Doc := {
  doc_styles : gset string;       (* paragraph styles the document defines *)
  doc_body : list Block
}.

#[global] Instance Run_eq_dec : EqDecision Run.
Proof. solve_decision. Defined.
#[global] Instance Block_eq_dec : EqDecision Block.
Proof. solve_decision. Defined.

(** English Metric Units per inch, and [docx.shared.Inches]: the length is
    [int(inches * 914400)], truncated towards zero.  The product is taken
    exactly here; the library takes it in binary floating point, which is
    the same number whenever the product is representable, as it is for
    the script's 1.0. *)
Definition EMUS_PER_INCH : Z := 914400.

Definition Inches (inches : Q) : Z :=
  Z.quot (Qnum inches * EMUS_PER_INCH) (Z.pos (Qden inches)).

(** ** The world of the script *)

Inductive File :=
| FImage (im : Image)
| FDocx (body : list Block)
| FOther (data : string).

Inductive Exn :=
| ModuleNotFoundError (name : string)
| PermissionError (path : string)
| FileNotFoundError (path : string)
| UnrecognizedImageError (path : string)
| KeyError (style : string)
| ValueError (level : Z)
| Dangling.                       (* a reference to no live object: never
                                      raised by Python, where references
                                      keep their objects alive *)

(** What the script does to the outside, in the order it does it. *)
Inductive Event :=
| EImageSave (path : string) (ok : bool)
| EDocNew (doc : nat)
| EDocAppend (doc : nat)
| ERunAppend (doc par : nat)
| EStyleLookup (name : string) (found : bool)
| EPictureOpen (path : string) (found : bool)
| EDocSave (path : string) (ok : bool)
| EPrint (line : string).

#[global] Instance Event_eq_dec : EqDecision Event.
Proof. solve_decision. Defined.

Record Env := {
  installed : string → bool;      (* importable modules *)
  can_write : string → bool;      (* paths that can be opened for writing *)
  template_styles : gset string   (* styles of the default template *)
}.

Record World := {
  fs : gmap string File;
  out : list string;              (* lines printed to standard output *)
  images : list Image;            (* heap of PIL image objects *)
  docs : list Doc;                (* heap of document objects *)
  trace : list Event
}.

Definition init (fs0 : gmap string File) : World :=
  {| fs := fs0; out := []; images := []; docs := []; trace := [] |}.

Definition set_fs (f : gmap string File) (w : World) : World :=
  {| fs := f; out := out w; images := images w; docs := docs w;
     trace := trace w |}.
Definition set_out (o : list string) (w : World) : World :=
  {| fs := fs w; out := o; images := images w; docs := docs w;
     trace := trace w |}.
Definition set_images (l : list Image) (w : World) : World :=
  {| fs := fs w; out := out w; images := l; docs := docs w;
     trace := trace w |}.
Definition set_docs (l : list Doc) (w : World) : World :=
  {| fs := fs w; out := out w; images := images w; docs := l;
     trace := trace w |}.
Definition log (e : Event) (w : World) : World :=
  {| fs := fs w; out := out w; images := images w; docs := docs w;
     trace := trace w ++ [e] |}.

(** ** The monad: environment in, world through, exception or value out *)

Inductive Res (A : Type) :=
| Ok (a : A) (w : World)
| Raised (e : Exn) (w : World).
Arguments Ok {A} a w.
Arguments Raised {A} e w.

Definition Py (A : Type) : Type := Env → World → Res A.

#[global] Instance Py_ret : MRet Py := λ A a _ w, Ok a w.
#[global] Instance Py_bind : MBind Py := λ A B k m env w,
  match m env w with
  | Ok a w' => k a env w'
  | Raised e w' => Raised e w'
  end.

Definition raise {A} (e : Exn) : Py A := λ _ w, Raised e w.

(** The final world of a run, whichever way it ended, and the status the
    interpreter exits with: an uncaught exception gives status 1. *)
Definition world_of {A} (r : Res A) : World :=
  match r with Ok _ w => w | Raised _ w => w end.

Definition exit_status {A} (r : Res A) : Z :=
  match r with Ok _ _ => 0 | Raised _ _ => 1 end.

(** ** Library calls *)

Record DrawRef := { draw_im : nat }.
Record ParRef := { par_doc : nat; par_idx : nat }.
Record RunRef := { run_par : ParRef; run_idx : nat }.

Definition import_ (name : string) : Py unit := λ env w,
  if installed env name then Ok () w else Raised (ModuleNotFoundError name) w.

(** [Image.new(mode, size, color)] *)
Definition Image_new (mode : string) (size : Z * Z) (c : color) : Py nat :=
  λ _ w,
  let im := {| im_mode := mode; im_size := size; im_ground := c;
               im_strokes := [] |} in
  Ok (length (images w)) (set_images (images w ++ [im]) w).

(** [ImageDraw.Draw(img)]: a drawing context that writes into [img]. *)
Definition ImageDraw_Draw (img : nat) : Py DrawRef := λ _ w,
  match images w !! img with
  | Some _ => Ok {| draw_im := img |} w
  | None => Raised Dangling w
  end.

(** [d.line(xy, fill, width)]: mutates the image the context was made for. *)
Definition line (d : DrawRef) (xy : Z * Z * Z * Z) (fill : color) (width : Z)
  : Py unit := λ _ w,
  match images w !! draw_im d with
  | Some im =>
      let s := {| stroke_xy := xy; stroke_fill := fill;
                  stroke_width := width |} in
      let im' := {| im_mode := im_mode im; im_size := im_size im;
                    im_ground := im_ground im;
                    im_strokes := im_strokes im ++ [s] |} in
      Ok () (set_images (<[draw_im d := im']> (images w)) w)
  | None => Raised Dangling w
  end.

(** [img.save(path)] *)
Definition Image_save (img : nat) (path : string) : Py unit := λ env w,
  match images w !! img with
  | Some im =>
      if can_write env path
      then Ok () (log (EImageSave path true)
                    (set_fs (<[path := FImage im]> (fs w)) w))
      else Raised (PermissionError path) (log (EImageSave path false) w)
  | None => Raised Dangling w
  end.

(** [Document()]: an empty document on the default template. *)
Definition Document : Py nat := λ env w,
  let d := {| doc_styles := template_styles env; doc_body := [] |} in
  Ok (length (docs w))
     (log (EDocNew (length (docs w))) (set_docs (docs w ++ [d]) w)).

(** The runs a new paragraph starts with: one holding [text], or none when
    [text] is empty. *)
Definition text_runs (text : string) : list Run :=
  match text with
  | EmptyString => []
  | _ => [{| run_text := text; run_bold := None |}]
  end.

Definition append_block (doc : nat) (b : Block) : Py ParRef := λ _ w,
  match docs w !! doc with
  | Some d =>
      let d' := {| doc_styles := doc_styles d;
                   doc_body := doc_body d ++ [b] |} in
      Ok {| par_doc := doc; par_idx := length (doc_body d) |}
         (log (EDocAppend doc) (set_docs (<[doc := d']> (docs w)) w))
  | None => Raised Dangling w
  end.

Definition block_runs (b : Block) : list Run :=
  match b with
  | Heading _ rs => rs
  | Paragraph _ rs => rs
  | Picture _ _ _ => []
  end.

(** The style name of a heading: ['Title'] for level 0, ['Heading %d'] for
    the others; the levels that reach this are 1 to 9, one digit each. *)
Definition heading_style (level : Z) : string :=
  if level =? 0 then "Title"
  else "Heading " ++ String (Ascii.ascii_of_nat (48 + Z.to_nat level)) EmptyString.

(** The level a style name gives its paragraph, if it is a heading style. *)
Definition heading_level (name : string) : option Z :=
  if String.eqb name "Title" then Some 0
  else List.find (λ lv, String.eqb name (heading_style lv))
         [1; 2; 3; 4; 5; 6; 7; 8; 9].

(** A paragraph in the style called [name]. *)
Definition styled_block (name : string) (runs : list Run) : Block :=
  match heading_level name with
  | Some lv => Heading lv runs
  | None => Paragraph (Some name) runs
  end.

(** A block given the style called [name]; a picture block carries none. *)
Definition restyle (name : string) (b : Block) : Block :=
  match b with
  | Picture _ _ _ => b
  | _ => styled_block name (block_runs b)
  end.

(** [paragraph.style = name]: the name is looked up among the styles the
    document defines; an unknown name raises [KeyError] and leaves the
    paragraph as it was. *)
Definition set_style (p : ParRef) (name : string) : Py unit := λ _ w,
  match docs w !! par_doc p with
  | Some d =>
      match doc_body d !! par_idx p with
      | Some b =>
          if decide (name ∈ doc_styles d)
          then
            let d' := {| doc_styles := doc_styles d;
                         doc_body := <[par_idx p := restyle name b]>
                                       (doc_body d) |} in
            Ok () (log (EStyleLookup name true)
                     (set_docs (<[par_doc p := d']> (docs w)) w))
          else Raised (KeyError name) (log (EStyleLookup name false) w)
      | None => Raised Dangling w
      end
  | None => Raised Dangling w
  end.

(** [doc.add_paragraph(text, style)]: the paragraph is appended with its
    text first; a style given by name is set on it afterwards. *)
Definition add_paragraph (doc : nat) (text : string) (style : option string)
  : Py ParRef :=
  p ← append_block doc (Paragraph None (text_runs text));
  match style with
  | Some s => set_style p s;; mret p
  | None => mret p
  end.

(** [doc.add_heading(text, level)]: levels run from 0 (the title) to 9; a
    heading is a paragraph in the style its level names. *)
Definition add_heading (doc : nat) (text : string) (level : Z) : Py ParRef :=
  if (0 <=? level) && (level <=? 9)
  then add_paragraph doc text (Some (heading_style level))
  else raise (ValueError level).

Definition block_add_run (r : Run) (b : Block) : option Block :=
  match b with
  | Heading lv rs => Some (Heading lv (rs ++ [r]))
  | Paragraph st rs => Some (Paragraph st (rs ++ [r]))
  | Picture _ _ _ => None
  end.

(** [p.add_run(text)]: the run goes to the end of paragraph [p], which
    lives inside its document. *)
Definition add_run (p : ParRef) (text : string) : Py RunRef := λ _ w,
  match docs w !! par_doc p with
  | Some d =>
      match doc_body d !! par_idx p with
      | Some b =>
          match block_add_run {| run_text := text; run_bold := None |} b with
          | Some b' =>
              let d' := {| doc_styles := doc_styles d;
                           doc_body := <[par_idx p := b']> (doc_body d) |} in
              Ok {| run_par := p; run_idx := length (block_runs b) |}
                 (log (ERunAppend (par_doc p) (par_idx p))
                    (set_docs (<[par_doc p := d']> (docs w)) w))
          | None => Raised Dangling w
          end
      | None => Raised Dangling w
      end
  | None => Raised Dangling w
  end.

Definition block_set_bold (i : nat) (v : bool) (b : Block) : Block :=
  let upd rs := alter (λ r, {| run_text := run_text r;
                                run_bold := Some v |}) i rs in
  match b with
  | Heading lv rs => Heading lv (upd rs)
  | Paragraph st rs => Paragraph st (upd rs)
  | Picture s im wd => Picture s im wd
  end.

(** [run.bold = v] *)
Definition set_bold (r : RunRef) (v : bool) : Py unit := λ _ w,
  let p := run_par r in
  match docs w !! par_doc p with
  | Some d =>
      match doc_body d !! par_idx p with
      | Some b =>
          match block_runs b !! run_idx r with
          | Some _ =>
              let d' := {| doc_styles := doc_styles d;
                           doc_body := <[par_idx p :=
                                         block_set_bold (run_idx r) v b]>
                                         (doc_body d) |} in
              Ok () (set_docs (<[par_doc p := d']> (docs w)) w)
          | None => Raised Dangling w
          end
      | None => Raised Dangling w
      end
  | None => Raised Dangling w
  end.

(** The run [paragraph.add_run()] makes when given no text. *)
Definition empty_run : Run := {| run_text := EmptyString; run_bold := None |}.

(** Opening an image file for reading. *)
Definition open_image (path : string) : Py Image := λ _ w,
  match fs w !! path with
  | Some (FImage im) => Ok im (log (EPictureOpen path true) w)
  | Some _ => Raised (UnrecognizedImageError path)
                (log (EPictureOpen path true) w)
  | None => Raised (FileNotFoundError path) (log (EPictureOpen path false) w)
  end.

(** The block a reference points at, replaced. *)
Definition put_block (p : ParRef) (b : Block) : Py unit := λ _ w,
  match docs w !! par_doc p with
  | Some d =>
      match doc_body d !! par_idx p with
      | Some _ =>
          let d' := {| doc_styles := doc_styles d;
                       doc_body := <[par_idx p := b]> (doc_body d) |} in
          Ok () (set_docs (<[par_doc p := d']> (docs w)) w)
      | None => Raised Dangling w
      end
  | None => Raised Dangling w
  end.

(** [doc.add_picture(path, width)]: a paragraph with one empty run is
    appended first; then the file at [path] is opened and its image put
    into that run. *)
Definition add_picture (doc : nat) (path : string) (width : option Z)
  : Py ParRef :=
  p ← append_block doc (Paragraph None [empty_run]);
  im ← open_image path;
  put_block p (Picture path im width);;
  mret p.

(** [doc.save(path)] *)
Definition Document_save (doc : nat) (path : string) : Py unit := λ env w,
  match docs w !! doc with
  | Some d =>
      if can_write env path
      then Ok () (log (EDocSave path true)
                    (set_fs (<[path := FDocx (doc_body d)]> (fs w)) w))
      else Raised (PermissionError path) (log (EDocSave path false) w)
  | None => Raised Dangling w
  end.

(** [print(line)] *)
Definition print (s : string) : Py unit := λ _ w,
  Ok () (log (EPrint s) (set_out (out w ++ [s]) w)).

(** ** The script *)

Definition icon_path : string := "test_icon.png".
Definition file_name : string := "Test_Document.docx".

Definition generate_word : Py unit :=
  import_ "docx";;
  import_ "docx.shared";;
  import_ "PIL";;
  img ← Image_new "RGB" (100, 100) (73, 109, 137);
  d ← ImageDraw_Draw img;
  line d (20, 50, 80, 50) (255, 255, 0) 5;;
  line d (50, 20, 50, 80) (255, 255, 0) 5;;
  Image_save img icon_path;;
  doc ← Document;
  _ ← add_heading doc "YUUKA 测试文档" 0;
  p ← add_paragraph doc "老师，这是为您生成的测试文档。" None;
  r ← add_run p " 这是一个加粗的测试文本。";
  set_bold r true;;
  _ ← add_heading doc "功能演示" 1;
  _ ← add_paragraph doc "下面展示了如何插入图标：" (Some "List Bullet");
  _ ← add_picture doc icon_path (Some (Inches 1.0));
  _ ← add_paragraph doc "文档生成概率：100%" (Some "Normal");
  _ ← add_paragraph doc "验算结果：一切正常。" (Some "Normal");
  Document_save doc file_name;;
  print ("Successfully generated " ++ file_name).

Definition run (env : Env) (fs0 : gmap string File) : Res unit :=
  generate_word env (init fs0).


(** ** What the script builds

    The values below are what the proofs show the script to construct; they
    only give names to the results. *)

Definition icon : Image :=
  {| im_mode := "RGB"; im_size := (100, 100); im_ground := (73, 109, 137);
     im_strokes :=
       [ {| stroke_xy := (20, 50, 80, 50); stroke_fill := (255, 255, 0);
            stroke_width := 5 |};
         {| stroke_xy := (50, 20, 50, 80); stroke_fill := (255, 255, 0);
            stroke_width := 5 |} ] |}.

Definition plain (text : string) : Run :=
  {| run_text := text; run_bold := None |}.

Definition body : list Block :=
  [ Heading 0 [plain "YUUKA 测试文档"];
    Paragraph None
      [ plain "老师，这是为您生成的测试文档。";
        {| run_text := " 这是一个加粗的测试文本。"; run_bold := Some true |} ];
    Heading 1 [plain "功能演示"];
    Paragraph (Some "List Bullet") [plain "下面展示了如何插入图标："];
    Picture icon_path icon (Some 914400);
    Paragraph (Some "Normal") [plain "文档生成概率：100%"];
    Paragraph (Some "Normal") [plain "验算结果：一切正常。"] ].

Definition message : string := "Successfully generated Test_Document.docx".

Definition full_trace : list Event :=
  [ EImageSave icon_path true; EDocNew 0;
    EDocAppend 0; EStyleLookup "Title" true;
    EDocAppend 0; ERunAppend 0 1;
    EDocAppend 0; EStyleLookup "Heading 1" true;
    EDocAppend 0; EStyleLookup "List Bullet" true;
    EDocAppend 0; EPictureOpen icon_path true;
    EDocAppend 0; EStyleLookup "Normal" true;
    EDocAppend 0; EStyleLookup "Normal" true;
    EDocSave file_name true; EPrint message ].

(** A paragraph as it is appended, before any style is set on it. *)
Definition unstyled (text : string) : Block := Paragraph None [plain text].

(** The world in which the icon is on disk and the document holds
    [blocks], after the first [k] events. *)
Definition assembling (env : Env) (fs0 : gmap string File)
    (blocks : list Block) (k : nat) : World :=
  {| fs := <[icon_path := FImage icon]> fs0; out := []; images := [icon];
     docs := [ {| doc_styles := template_styles env; doc_body := blocks |} ];
     trace := take k full_trace |}.

(** The ten ways a run can end. *)
Inductive Ends (env : Env) (fs0 : gmap string File) : Res unit → Prop :=
| Ends_no_docx :
    installed env "docx" = false →
    Ends env fs0 (Raised (ModuleNotFoundError "docx") (init fs0))
| Ends_no_docx_shared :
    installed env "docx" = true →
    installed env "docx.shared" = false →
    Ends env fs0 (Raised (ModuleNotFoundError "docx.shared") (init fs0))
| Ends_no_PIL :
    installed env "docx" = true →
    installed env "docx.shared" = true →
    installed env "PIL" = false →
    Ends env fs0 (Raised (ModuleNotFoundError "PIL") (init fs0))
| Ends_icon_refused :
    installed env "docx" = true →
    installed env "docx.shared" = true →
    installed env "PIL" = true →
    can_write env icon_path = false →
    Ends env fs0
      (Raised (PermissionError icon_path)
         (log (EImageSave icon_path false) (set_images [icon] (init fs0))))
| Ends_no_title :
    installed env "docx" = true →
    installed env "docx.shared" = true →
    installed env "PIL" = true →
    can_write env icon_path = true →
    "Title" ∉ template_styles env →
    Ends env fs0
      (Raised (KeyError "Title")
         (log (EStyleLookup "Title" false)
            (assembling env fs0 [unstyled "YUUKA 测试文档"] 3)))
| Ends_no_heading_1 :
    installed env "docx" = true →
    installed env "docx.shared" = true →
    installed env "PIL" = true →
    can_write env icon_path = true →
    "Title" ∈ template_styles env →
    "Heading 1" ∉ template_styles env →
    Ends env fs0
      (Raised (KeyError "Heading 1")
         (log (EStyleLookup "Heading 1" false)
            (assembling env fs0 (take 2 body ++ [unstyled "功能演示"])%list 7)))
| Ends_no_list_bullet :
    installed env "docx" = true →
    installed env "docx.shared" = true →
    installed env "PIL" = true →
    can_write env icon_path = true →
    "Title" ∈ template_styles env →
    "Heading 1" ∈ template_styles env →
    "List Bullet" ∉ template_styles env →
    Ends env fs0
      (Raised (KeyError "List Bullet")
         (log (EStyleLookup "List Bullet" false)
            (assembling env fs0
               (take 3 body ++ [unstyled "下面展示了如何插入图标："])%list 9)))
| Ends_no_normal :
    installed env "docx" = true →
    installed env "docx.shared" = true →
    installed env "PIL" = true →
    can_write env icon_path = true →
    "Title" ∈ template_styles env →
    "Heading 1" ∈ template_styles env →
    "List Bullet" ∈ template_styles env →
    "Normal" ∉ template_styles env →
    Ends env fs0
      (Raised (KeyError "Normal")
         (log (EStyleLookup "Normal" false)
            (assembling env fs0
               (take 5 body ++ [unstyled "文档生成概率：100%"])%list 13)))
| Ends_docx_refused :
    installed env "docx" = true →
    installed env "docx.shared" = true →
    installed env "PIL" = true →
    can_write env icon_path = true →
    "Title" ∈ template_styles env →
    "Heading 1" ∈ template_styles env →
    "List Bullet" ∈ template_styles env →
    "Normal" ∈ template_styles env →
    can_write env file_name = false →
    Ends env fs0
      (Raised (PermissionError file_name)
         (log (EDocSave file_name false) (assembling env fs0 body 16)))
| Ends_ok :
    installed env "docx" = true →
    installed env "docx.shared" = true →
    installed env "PIL" = true →
    can_write env icon_path = true →
    "Title" ∈ template_styles env →
    "Heading 1" ∈ template_styles env →
    "List Bullet" ∈ template_styles env →
    "Normal" ∈ template_styles env →
    can_write env file_name = true →
    Ends env fs0
      (Ok ()
         (log (EPrint message)
            (set_out [message]
               (log (EDocSave file_name true)
                  (set_fs (<[file_name := FDocx body]>
                             (<[icon_path := FImage icon]> fs0))
                     (assembling env fs0 body 16)))))).

(** ** Reading a trace *)

(** Paths of the files a trace shows written, in order. *)
Definition writes (t : list Event) : list string :=
  omap (λ e, match e with
             | EImageSave p true | EDocSave p true => Some p
             | _ => None
             end) t.

Definition is_doc_new (e : Event) : bool :=
  match e with EDocNew _ => true | _ => false end.
Definition is_append (e : Event) : bool :=
  match e with EDocAppend _ => true | _ => false end.
Definition is_run_append (e : Event) : bool :=
  match e with ERunAppend _ _ => true | _ => false end.
Definition is_image_save (e : Event) : bool :=
  match e with EImageSave _ _ => true | _ => false end.
Definition is_doc_save (e : Event) : bool :=
  match e with EDocSave _ _ => true | _ => false end.
Definition is_print (e : Event) : bool :=
  match e with EPrint _ => true | _ => false end.

Definition count (f : Event → bool) (t : list Event) : nat :=
  length (List.filter f t).

(** Number of blocks of each live document. *)
Definition block_counts (w : World) : list nat :=
  (λ d, length (doc_body d)) <$> docs w.

(** Texts of the runs of each block. *)
Definition texts (b : list Block) : list (list string) :=
  (λ blk, run_text <$> block_runs blk) <$> b.

(** ** Plane geometry of strokes, on integer coordinates *)

Definition on_segment (s : Z * Z * Z * Z) (p : Z * Z) : bool :=
  let '(x0, y0, x1, y1) := s in
  let '(x, y) := p in
  ((x1 - x0) * (y - y0) =? (y1 - y0) * (x - x0))
  && (Z.min x0 x1 <=? x) && (x <=? Z.max x0 x1)
  && (Z.min y0 y1 <=? y) && (y <=? Z.max y0 y1).

Definition in_canvas (size : Z * Z) (p : Z * Z) : bool :=
  (0 <=? p.1) && (p.1 <? size.1) && (0 <=? p.2) && (p.2 <? size.2).

Definition horizontal (s : Z * Z * Z * Z) : Prop :=
  let '(x0, y0, x1, y1) := s in y0 = y1 ∧ x0 ≠ x1.

Definition vertical (s : Z * Z * Z * Z) : Prop :=
  let '(x0, y0, x1, y1) := s in x0 = x1 ∧ y0 ≠ y1.

Definition perpendicular (a b : Z * Z * Z * Z) : Prop :=
  let '(ax0, ay0, ax1, ay1) := a in
  let '(bx0, by0, bx1, by1) := b in
  (ax1 - ax0) * (bx1 - bx0) + (ay1 - ay0) * (by1 - by0) = 0.

(** Twice the midpoint, and the squared length, of a segment. *)
Definition midpoint2 (s : Z * Z * Z * Z) : Z * Z :=
  let '(x0, y0, x1, y1) := s in (x0 + x1, y0 + y1).

Definition length2 (s : Z * Z * Z * Z) : Z :=
  let '(x0, y0, x1, y1) := s in
  (x1 - x0) * (x1 - x0) + (y1 - y0) * (y1 - y0).

(** ** Environments used to exercise the script *)

Definition good_env : Env :=
  {| installed := λ _, true; can_write := λ _, true;
     template_styles := {["Normal"; "List Bullet"; "Title"; "Heading 1"]} |}.

(** Like [good_env], on a template with more styles. *)
Definition rich_env : Env :=
  {| installed := λ _, true; can_write := λ _, true;
     template_styles :=
       {["Normal"; "List Bullet"; "List Number"; "Title"; "Subtitle";
         "Heading 1"; "Heading 2"]} |}.

(** Everything installed, a richer template, nothing writable. *)
Definition readonly_env : Env :=
  {| installed := λ _, true; can_write := λ _, false;
     template_styles := {["Normal"; "List Bullet"; "Title"]} |}.

(** Only the icon can be written. *)
Definition icon_only_env : Env :=
  {| installed := λ _, true;
     can_write := λ p, bool_decide (p = icon_path);
     template_styles := {["Normal"; "List Bullet"; "Title"; "Heading 1"]} |}.

(** A template without the list style. *)
Definition bare_env : Env :=
  {| installed := λ _, true; can_write := λ _, true;
     template_styles := {["Normal"; "Title"; "Heading 1"]} |}.

(** A template with the two styles the script names and no heading style. *)
Definition two_styles_env : Env :=
  {| installed := λ _, true; can_write := λ _, true;
     template_styles := {["Normal"; "List Bullet"]} |}.

(** A directory that already holds something under both names. *)
Definition stale_fs : gmap string File :=
  {[ icon_path := FOther "old"; file_name := FOther "older";
     "notes.txt" := FOther "keep" ]}.

(** No PIL, and nothing else wrong. *)
Definition no_pil_env : Env :=
  {| installed := λ m, negb (bool_decide (m = "PIL"));
     can_write := λ _, true;
     template_styles := {["Normal"; "List Bullet"; "Title"; "Heading 1"]} |}.

(** What a run needs from its environment. *)
Definition suitable (env : Env) : Prop :=
  installed env "docx" = true ∧
  installed env "docx.shared" = true ∧
  installed env "PIL" = true ∧
  can_write env icon_path = true ∧
  "Title" ∈ template_styles env ∧
  "Heading 1" ∈ template_styles env ∧
  "List Bullet" ∈ template_styles env ∧
  "Normal" ∈ template_styles env ∧
  can_write env file_name = true.

(** ** Proof automation *)

(** Walk down a concrete list looked up at an unknown index. *)
Ltac scan j Hj :=
  cbn in Hj;
  repeat (first [discriminate Hj | destruct j as [| j]; cbn in Hj]).

(** Case analysis on the next decision the environment takes in a run. *)
Ltac decide_next :=
  match goal with
  | |- context [installed ?e ?m] => destruct (installed e m) eqn:?
  | |- context [can_write ?e ?p] => destruct (can_write e p) eqn:?
  | |- context [decide (?s ∈ template_styles ?e)] =>
      destruct (decide (s ∈ template_styles e))
  | |- context [<[?k:=?v]> ?m !! ?k] => rewrite (lookup_insert_eq m k v)
  end.

(** Symbolic execution of the script, one goal per way it can end. *)
Ltac run_cases :=
  unfold run, generate_word, mbind, Py_bind, import_, Image_save,
    add_heading, add_paragraph, add_picture, Document_save, append_block,
    set_style, restyle, open_image, put_block, raise, Image_new, ImageDraw_Draw, line,
    Document, add_run, set_bold, print, mbind, Py_bind, mret, Py_ret,
    init, log, set_fs, set_out, set_images, set_docs;
  cbn; repeat (decide_next; cbn).

Lemma run_ends env fs0 : Ends env fs0 (run env fs0).
Proof.
  run_cases.
  all: try done.
  all: unfold assembling, log, set_fs, set_out, set_images, set_docs, init; cbn.
  all: by (econstructor; eauto).
Qed.


(** Case analysis on how the run ended, for goals that mention the run. *)
Ltac by_ends env fs0 :=
  generalize (run_ends env fs0); generalize (run env fs0);
  let r := fresh "r" in let E := fresh "E" in
  intros r E; destruct E.

(** ** Sequencing *)

(** An exception raised by a statement is the result of every sequence that
    starts with it: nothing after it runs, nothing catches it. *)
Lemma bind_raised {A B} (m : Py A) (k : A → Py B) env w e w' :
  m env w = Raised e w' → (m ≫= k) env w = Raised e w'.
Proof. unfold mbind, Py_bind. by intros ->. Qed.

Lemma bind_ok {A B} (m : Py A) (k : A → Py B) env w a w' :
  m env w = Ok a w' → (m ≫= k) env w = k a env w'.
Proof. unfold mbind, Py_bind. by intros ->. Qed.

(** ** Library calls, one at a time *)

(** A whole number of inches is that many times 914400 units. *)
Lemma Inches_whole (n : Z) : Inches (inject_Z n) = n * EMUS_PER_INCH.
Proof. unfold Inches. cbn. apply Z.quot_1_r. Qed.

Lemma Document_empty env w :
  ∃ w', Document env w = Ok (length (docs w)) w' ∧
        docs w' !! length (docs w) =
          Some {| doc_styles := template_styles env; doc_body := [] |} ∧
        fs w' = fs w ∧ out w' = out w.
Proof.
  eexists. split; [reflexivity |]. cbn. split; [| done].
  by rewrite lookup_app_r, Nat.sub_diag.
Qed.

(** Appending a run changes one paragraph and no block count. *)
Lemma add_run_blocks p text env w r w' :
  add_run p text env w = Ok r w' →
  block_counts w' = block_counts w ∧
  count is_append (trace w') = count is_append (trace w) ∧
  fs w' = fs w ∧ out w' = out w.
Proof.
  unfold add_run, block_counts.
  destruct (docs w !! par_doc p) as [d|] eqn:Hd; [| done].
  destruct (doc_body d !! par_idx p) as [b|] eqn:Hb; [| done].
  destruct (block_add_run _ b) as [b'|]; [| done].
  intros [= <- <-]. cbn. split_and!; [| | done | done].
  - rewrite list_fmap_insert. cbn. rewrite length_insert.
    apply list_insert_id. by rewrite list_lookup_fmap, Hd.
  - unfold count. rewrite List.filter_app. cbn. by rewrite app_nil_r.
Qed.

(** The run goes to the end of the block the reference points at, in the
    document it points into, and nowhere else. *)
Lemma add_run_lands p text env w r w' :
  add_run p text env w = Ok r w' →
  ∃ d b b',
    docs w !! par_doc p = Some d ∧
    doc_body d !! par_idx p = Some b ∧
    block_runs b'
      = (block_runs b ++ [{| run_text := text; run_bold := None |}])%list ∧
    docs w' = <[par_doc p := {| doc_styles := doc_styles d;
                                doc_body := <[par_idx p := b']> (doc_body d) |}]>
                (docs w) ∧
    trace w' = (trace w ++ [ERunAppend (par_doc p) (par_idx p)])%list.
Proof.
  unfold add_run.
  destruct (docs w !! par_doc p) as [d |] eqn:Hd; [| done].
  destruct (doc_body d !! par_idx p) as [b |] eqn:Hb; [| done].
  destruct b as [lv rs | st rs | src im wd]; cbn; [| | done].
  - intros [= <- <-].
    by exists d, (Heading lv rs),
      (Heading lv (rs ++ [{| run_text := text; run_bold := None |}])).
  - intros [= <- <-].
    by exists d, (Paragraph st rs),
      (Paragraph st (rs ++ [{| run_text := text; run_bold := None |}])).
Qed.

(** On a live document the embed step appends its paragraph and then opens
    the file at the path it was given, once; the event says whether the
    file system held that path. *)
Lemma add_picture_opens doc path width env w :
  is_Some (docs w !! doc) →
  ∃ found,
    trace (world_of (add_picture doc path width env w))
      = (trace w ++ [EDocAppend doc; EPictureOpen path found])%list ∧
    (found = true ↔ is_Some (fs w !! path)).
Proof.
  intros [d Hd].
  unfold add_picture, mbind, Py_bind, append_block, open_image, put_block.
  rewrite Hd. cbn.
  destruct (fs w !! path) as [[im | b | s] |] eqn:Hf; cbn.
  - exists true. split; [| by split; eauto].
    destruct (<[doc:=_]> (docs w) !! doc) as [d0 |]; cbn;
      [destruct (doc_body d0 !! _); cbn |]; by rewrite <- app_assoc.
  - exists true. split; [| by split; eauto]. by rewrite <- app_assoc.
  - exists true. split; [| by split; eauto]. by rewrite <- app_assoc.
  - exists false. split; [| split; [done | by intros [? ?]]].
    by rewrite <- app_assoc.
Qed.

(** ** The run as a whole *)

Lemma paths_differ : file_name ≠ icon_path.
Proof. discriminate. Qed.


(** A run that completes ended the last of the ten ways. *)
Lemma run_completes env fs0 :
  exit_status (run env fs0) = 0 →
  world_of (run env fs0) =
    {| fs := <[file_name := FDocx body]> (<[icon_path := FImage icon]> fs0);
       out := [message]; images := [icon];
       docs := [ {| doc_styles := template_styles env; doc_body := body |} ];
       trace := full_trace |}.
Proof. by_ends env fs0; cbn; intros; done. Qed.

(** The only exceptions a run can end in are the three the environment can
    cause; the range check on heading levels, the image lookup and the
    object references never fail. *)
Lemma run_exceptions env fs0 e w :
  run env fs0 = Raised e w →
  (∃ m, e = ModuleNotFoundError m ∧ m ∈ ["docx"; "docx.shared"; "PIL"]) ∨
  (∃ p, e = PermissionError p ∧ p ∈ [icon_path; file_name]) ∨
  (∃ s, e = KeyError s ∧
        s ∈ ["Title"; "Heading 1"; "List Bullet"; "Normal"]).
Proof.
  by_ends env fs0; intros [= <- <-].
  1-3: left; eexists; split; [done |]; set_solver.
  all: right.
  1,6: left; eexists; split; [done |]; set_solver.
  all: right; eexists; split; [done |]; set_solver.
Qed.

(** Once the icon has been saved, its file holds the drawn image for the
    rest of the run, however the run ends. *)
Lemma icon_on_disk env fs0 :
  EImageSave icon_path true ∈ trace (world_of (run env fs0)) →
  fs (world_of (run env fs0)) !! icon_path = Some (FImage icon).
Proof.
  intros [j Hj]%list_elem_of_lookup. revert Hj.
  by_ends env fs0; cbn; intros Hj.
  1-4: by scan j Hj.
  1-5: apply lookup_insert_eq.
  rewrite lookup_insert_ne by apply paths_differ. apply lookup_insert_eq.
Qed.

Example run_good :
  run good_env ∅ =
    Ok () {| fs := {[ file_name := FDocx body; icon_path := FImage icon ]};
             out := [message]; images := [icon];
             docs := [ {| doc_styles := template_styles good_env;
                          doc_body := body |} ];
             trace := full_trace |}.
Proof. vm_compute. reflexivity. Qed.

Example run_readonly :
  run readonly_env stale_fs =
    Raised (PermissionError icon_path)
      {| fs := stale_fs; out := []; images := [icon]; docs := [];
         trace := [EImageSave icon_path false] |}.
Proof. vm_compute. reflexivity. Qed.

Example run_bare :
  ∃ w, run bare_env ∅ = Raised (KeyError "List Bullet") w ∧
       out w = [] ∧ block_counts w = [4%nat] ∧
       fs w = {[ icon_path := FImage icon ]}.
Proof. eexists. split; [vm_compute; reflexivity |]. done. Qed.

(** On a template with only the two styles the script names, the run ends
    at the first heading, with that heading's paragraph appended unstyled
    and the icon on disk. *)
Example run_two_styles :
  ∃ w, run two_styles_env ∅ = Raised (KeyError "Title") w ∧
       out w = [] ∧
       doc_body <$> docs w = [[Paragraph None [plain "YUUKA 测试文档"]]] ∧
       fs w = {[ icon_path := FImage icon ]}.
Proof. eexists. split; [vm_compute; reflexivity |]. done. Qed.

(** Embedding a file that is not there leaves the paragraph made for it. *)
Example add_picture_missing :
  ∃ w, (doc ← Document; add_picture doc "nowhere.png" None) good_env (init ∅)
         = Raised (FileNotFoundError "nowhere.png") w ∧
       doc_body <$> docs w = [[Paragraph None [empty_run]]] ∧
       trace w = [EDocNew 0; EDocAppend 0; EPictureOpen "nowhere.png" false].
Proof. eexists. split; [vm_compute; reflexivity |]. done. Qed.

(** ** The claims *)

(** C1.  After a complete run the document holds exactly seven blocks, in
    this order: the title heading (level 0); the greeting paragraph, whose
    second run is the bold text with its bold flag set; a level-1 heading;
    a 'List Bullet' paragraph; a picture read from the icon file saved
    earlier, one inch wide; and two 'Normal' paragraphs. *)
Theorem document_blocks env fs0 :
  exit_status (run env fs0) = 0 →
  ∃ im,
    fs (world_of (run env fs0)) !! icon_path = Some (FImage im) ∧
    doc_body <$> docs (world_of (run env fs0)) =
      [ [ Heading 0 [ {| run_text := "YUUKA 测试文档"; run_bold := None |} ];
          Paragraph None
            [ {| run_text := "老师，这是为您生成的测试文档。"; run_bold := None |};
              {| run_text := " 这是一个加粗的测试文本。";
                 run_bold := Some true |} ];
          Heading 1 [ {| run_text := "功能演示"; run_bold := None |} ];
          Paragraph (Some "List Bullet")
            [ {| run_text := "下面展示了如何插入图标："; run_bold := None |} ];
          Picture icon_path im (Some (Inches 1.0));
          Paragraph (Some "Normal")
            [ {| run_text := "文档生成概率：100%"; run_bold := None |} ];
          Paragraph (Some "Normal")
            [ {| run_text := "验算结果：一切正常。"; run_bold := None |} ] ] ] ∧
    Inches 1.0 = 1 * EMUS_PER_INCH.
Proof.
  intros H. rewrite (run_completes _ _ H). exists icon. split_and!.
  - cbn. rewrite lookup_insert_ne by apply paths_differ.
    apply lookup_insert_eq.
  - reflexivity.
  - reflexivity.
Qed.

Lemma document_blocks_witness :
  exit_status (run good_env ∅) = 0 ∧
  ∃ im,
    fs (world_of (run good_env ∅)) !! icon_path = Some (FImage im) ∧
    block_counts (world_of (run good_env ∅)) = [7%nat].
Proof.
  split; [vm_compute; reflexivity |].
  destruct (document_blocks good_env ∅) as (im & Hf & Hb & _);
    [vm_compute; reflexivity |].
  exists im. split; [exact Hf |]. reflexivity.
Defined.

(** C2.  On a live document the embed step opens the file at the path it
    is given, once, and finds it exactly when the file system holds that
    path at that moment.  In every run, whenever the embed step opens a
    file, that file is the icon, it is found, and the icon was saved to
    that path strictly earlier. *)
Theorem icon_saved_before_embed env fs0 :
  (∀ doc path width env' w,
     is_Some (docs w !! doc) →
     ∃ found new,
       trace (world_of (add_picture doc path width env' w))
         = (trace w ++ new)%list ∧
       EPictureOpen path found ∈ new ∧
       (∀ p f, EPictureOpen p f ∈ new → p = path ∧ f = found) ∧
       (found = true ↔ is_Some (fs w !! path))) ∧
  (∀ j p found,
     trace (world_of (run env fs0)) !! j = Some (EPictureOpen p found) →
     p = icon_path ∧ found = true ∧
     ∃ i, (i < j)%nat ∧
          trace (world_of (run env fs0)) !! i
            = Some (EImageSave icon_path true)).
Proof.
  split.
  - intros doc path width env' w Hd.
    destruct (add_picture_opens doc path width env' w Hd) as (found & Ht & Hf).
    exists found, [EDocAppend doc; EPictureOpen path found].
    split_and!; [exact Ht | repeat constructor | | exact Hf].
    intros p f [j Hj]%list_elem_of_lookup. scan j Hj.
    by injection Hj as <- <-.
  - intros j p found. by_ends env fs0; cbn; intros Hj.
    all: scan j Hj.
    all: injection Hj as <- <-.
    all: split_and!; [done .. |]; exists 0%nat; split; [lia | done].
Qed.

Lemma icon_saved_before_embed_witness :
  trace (world_of (run good_env ∅)) !! 11%nat
    = Some (EPictureOpen icon_path true) ∧
  ∃ i, (i < 11)%nat ∧
       trace (world_of (run good_env ∅)) !! i
         = Some (EImageSave icon_path true).
Proof.
  split; [vm_compute; reflexivity |].
  apply (proj2 (icon_saved_before_embed good_env ∅) 11%nat icon_path true).
  vm_compute; reflexivity.
Defined.

(** C3.  Once saved, the icon file holds a 100 by 100 image on a single
    background colour with exactly two strokes, both in a colour other than
    the background, and the two segments share a point inside the canvas. *)
Theorem icon_image env fs0 :
  EImageSave icon_path true ∈ trace (world_of (run env fs0)) →
  ∃ im s1 s2,
    fs (world_of (run env fs0)) !! icon_path = Some (FImage im) ∧
    im_size im = (100, 100) ∧
    im_strokes im = [s1; s2] ∧
    stroke_fill s1 ≠ im_ground im ∧
    stroke_fill s2 ≠ im_ground im ∧
    ∃ pt, on_segment (stroke_xy s1) pt = true ∧
          on_segment (stroke_xy s2) pt = true ∧
          in_canvas (im_size im) pt = true.
Proof.
  intros H%icon_on_disk. eexists icon, _, _.
  split_and!; [exact H | reflexivity | reflexivity | discriminate ..|].
  exists (50, 50). by vm_compute.
Qed.

Lemma icon_image_witness :
  EImageSave icon_path true ∈ trace (world_of (run icon_only_env stale_fs)) ∧
  ∃ im, fs (world_of (run icon_only_env stale_fs)) !! icon_path
          = Some (FImage im) ∧
        length (im_strokes im) = 2%nat.
Proof.
  assert (EImageSave icon_path true
            ∈ trace (world_of (run icon_only_env stale_fs))) as Hin
    by (vm_compute; constructor).
  split; [exact Hin |].
  destruct (icon_image icon_only_env stale_fs Hin)
    as (im & s1 & s2 & Hf & _ & Hs & _).
  exists im. split; [exact Hf |]. by rewrite Hs.
Defined.

(** C4.  [Document()] yields an empty document.  Appending a run puts it
    at the end of the paragraph it is called on, logs that paragraph, and
    leaves the number of blocks of every document, and the number of
    top-level appends, as they were.  A complete run creates one document,
    applies exactly seven top-level appends to it and one run append, which
    goes to the first body paragraph (block 1, the only block with two
    runs), and then saves it exactly once, after which it holds seven
    blocks. *)
Theorem document_lifetime :
  (∀ env w, ∃ w',
     Document env w = Ok (length (docs w)) w' ∧
     docs w' !! length (docs w) =
       Some {| doc_styles := template_styles env; doc_body := [] |}) ∧
  (∀ p text env w r w',
     add_run p text env w = Ok r w' →
     block_counts w' = block_counts w ∧
     count is_append (trace w') = count is_append (trace w) ∧
     ∃ d b b',
       docs w !! par_doc p = Some d ∧
       doc_body d !! par_idx p = Some b ∧
       block_runs b'
         = (block_runs b ++ [{| run_text := text; run_bold := None |}])%list ∧
       docs w' = <[par_doc p :=
                   {| doc_styles := doc_styles d;
                      doc_body := <[par_idx p := b']> (doc_body d) |}]>
                   (docs w) ∧
       trace w' = (trace w ++ [ERunAppend (par_doc p) (par_idx p)])%list) ∧
  (∀ env fs0,
     exit_status (run env fs0) = 0 →
     ∃ before after,
       trace (world_of (run env fs0))
         = (before ++ EDocSave file_name true :: after)%list ∧
       count is_doc_new before = 1%nat ∧
       count is_append before = 7%nat ∧
       count is_run_append before = 1%nat ∧
       count is_doc_save before = 0%nat ∧
       count is_append after = 0%nat ∧
       count is_run_append after = 0%nat ∧
       count is_doc_save after = 0%nat ∧
       block_counts (world_of (run env fs0)) = [7%nat] ∧
       List.filter is_run_append before = [ERunAppend 0 1] ∧
       (λ d, (λ b, length (block_runs b)) <$> doc_body d)
         <$> docs (world_of (run env fs0))
         = [[1; 2; 1; 1; 0; 1; 1]%nat]).
Proof.
  split_and!.
  - intros env w. destruct (Document_empty env w) as (w' & ? & ? & _). eauto.
  - intros p text env w r w' H.
    destruct (add_run_blocks _ _ _ _ _ _ H) as (? & ? & _).
    split_and!; [done | done | by eapply add_run_lands].
  - intros env fs0 H. rewrite (run_completes _ _ H).
    exists (take 16 full_trace), (drop 17 full_trace).
    split_and!; reflexivity.
Qed.

Lemma document_lifetime_witness :
  exit_status (run good_env ∅) = 0 ∧
  count is_append (trace (world_of (run good_env ∅))) = 7%nat ∧
  block_counts (world_of (run good_env ∅)) = [7%nat].
Proof.
  split; [vm_compute; reflexivity |].
  destruct (proj2 (proj2 document_lifetime) good_env ∅)
    as (before & after & Ht & _ & Ha & _ & _ & Hb & _ & _ & Hc & _);
    [vm_compute; reflexivity |].
  split; [| exact Hc].
  rewrite Ht. unfold count in *.
  rewrite List.filter_app, length_app. cbn [List.filter is_append].
  rewrite Ha, Hb. reflexivity.
Defined.

(** C5.  A complete run writes exactly two files, the icon and then the
    document, at their fixed relative paths; every other path of the file
    system holds what it held before. *)
Theorem two_files_written env fs0 :
  exit_status (run env fs0) = 0 →
  icon_path = "test_icon.png" ∧ file_name = "Test_Document.docx" ∧
  writes (trace (world_of (run env fs0))) = [icon_path; file_name] ∧
  (∃ im b, fs (world_of (run env fs0)) !! icon_path = Some (FImage im) ∧
           fs (world_of (run env fs0)) !! file_name = Some (FDocx b)) ∧
  dom (fs (world_of (run env fs0))) = {[icon_path; file_name]} ∪ dom fs0 ∧
  ∀ p, p ≠ icon_path → p ≠ file_name →
       fs (world_of (run env fs0)) !! p = fs0 !! p.
Proof.
  intros H. rewrite (run_completes _ _ H). cbn.
  split_and!; [done | done | reflexivity | | |].
  - exists icon, body. split.
    + rewrite lookup_insert_ne by apply paths_differ. apply lookup_insert_eq.
    + apply lookup_insert_eq.
  - rewrite !dom_insert_L. apply set_eq. intros x.
    rewrite !elem_of_union. tauto.
  - intros p Hi Hf. rewrite lookup_insert_ne by congruence.
    apply lookup_insert_ne. congruence.
Qed.

Lemma two_files_written_witness :
  exit_status (run good_env stale_fs) = 0 ∧
  fs (world_of (run good_env stale_fs)) !! "notes.txt"
    = Some (FOther "keep").
Proof.
  split; [vm_compute; reflexivity |].
  destruct (two_files_written good_env stale_fs) as (_ & _ & _ & _ & _ & H);
    [vm_compute; reflexivity |].
  rewrite H; [vm_compute; reflexivity | discriminate | discriminate].
Defined.

(** C6.  In every run the confirmation line is printed if and only if the
    document was saved, and it is then the only line printed and names the
    document file.  A run that ends in an exception ends with the exception
    its failing call raised (a sequence never continues past, or replaces,
    an exception), exits with a non-zero status, prints nothing, tries each
    save at most once, and leaves an icon it has already written on disk. *)
Theorem confirmation_iff_saved env fs0 :
  (out (world_of (run env fs0)) = ["Successfully generated " ++ file_name]
   ↔ EDocSave file_name true ∈ trace (world_of (run env fs0))) ∧
  (EDocSave file_name true ∈ trace (world_of (run env fs0))
   ↔ exit_status (run env fs0) = 0) ∧
  (∀ {A B} (m : Py A) (k : A → Py B) env' w e w',
     m env' w = Raised e w' → (m ≫= k) env' w = Raised e w') ∧
  (∀ e w, run env fs0 = Raised e w →
     exit_status (run env fs0) ≠ 0 ∧
     out w = [] ∧
     count is_print (trace w) = 0%nat ∧
     (count is_image_save (trace w) ≤ 1)%nat ∧
     (count is_doc_save (trace w) ≤ 1)%nat ∧
     (EImageSave icon_path true ∈ trace w →
      fs w !! icon_path = Some (FImage icon))).
Proof.
  split_and!.
  - by_ends env fs0; cbn; (split; [discriminate || (intros _) | ]).
    all: try (intros [j Hj]%list_elem_of_lookup; by scan j Hj).
    apply list_elem_of_lookup. by exists 16%nat.
  - by_ends env fs0; cbn; (split; [| discriminate || (intros _)]).
    all: try (intros [j Hj]%list_elem_of_lookup; by scan j Hj).
    all: done || (apply list_elem_of_lookup; by exists 16%nat).
  - intros A B m k env' w e w'. apply bind_raised.
  - intros e w Hr. pose proof (icon_on_disk env fs0) as Hicon.
    rewrite Hr in *. cbn in Hicon. split; [discriminate |].
    split_and!; [| | | | exact Hicon]; clear Hicon; revert Hr.
    all: by_ends env fs0; intros [= <- <-]; vm_compute; done || lia.
Qed.

Lemma confirmation_iff_saved_witness :
  run icon_only_env ∅
    = Raised (PermissionError file_name) (world_of (run icon_only_env ∅)) ∧
  exit_status (run icon_only_env ∅) ≠ 0 ∧
  out (world_of (run icon_only_env ∅)) = [].
Proof.
  assert (run icon_only_env ∅
          = Raised (PermissionError file_name)
              (world_of (run icon_only_env ∅))) as Hr
    by (vm_compute; reflexivity).
  split; [exact Hr |].
  destruct (proj2 (proj2 (proj2 (confirmation_iff_saved icon_only_env ∅)))
              _ _ Hr) as (Hs & Ho & _).
  split; [exact Hs | exact Ho].
Defined.

(** C7.  Any two complete runs, whatever their environments and whatever
    the directories they start in, leave documents with the same blocks in
    the same order (texts, styles and bold flags included), and write the
    same document content. *)
Theorem content_deterministic env1 fs1 env2 fs2 :
  exit_status (run env1 fs1) = 0 →
  exit_status (run env2 fs2) = 0 →
  doc_body <$> docs (world_of (run env1 fs1))
    = doc_body <$> docs (world_of (run env2 fs2)) ∧
  fs (world_of (run env1 fs1)) !! file_name
    = fs (world_of (run env2 fs2)) !! file_name ∧
  is_Some (fs (world_of (run env1 fs1)) !! file_name).
Proof.
  intros H1 H2. rewrite (run_completes _ _ H1), (run_completes _ _ H2). cbn.
  rewrite !lookup_insert_eq. eauto.
Qed.

Lemma content_deterministic_witness :
  exit_status (run good_env ∅) = 0 ∧
  exit_status (run rich_env stale_fs) = 0 ∧
  doc_body <$> docs (world_of (run good_env ∅))
    = doc_body <$> docs (world_of (run rich_env stale_fs)).
Proof.
  split; [vm_compute; reflexivity |].
  split; [vm_compute; reflexivity |].
  apply (content_deterministic good_env ∅ rich_env stale_fs);
    vm_compute; reflexivity.
Defined.

(** C8.  The texts are constants of the program: whatever the environment,
    a complete run leaves these run texts, block by block (the picture has
    none), and prints this line. *)
Theorem literal_texts env fs0 :
  exit_status (run env fs0) = 0 →
  texts <$> (doc_body <$> docs (world_of (run env fs0))) =
    [ [ ["YUUKA 测试文档"];
        ["老师，这是为您生成的测试文档。"; " 这是一个加粗的测试文本。"];
        ["功能演示"];
        ["下面展示了如何插入图标："];
        [];
        ["文档生成概率：100%"];
        ["验算结果：一切正常。"] ] ] ∧
  out (world_of (run env fs0)) = ["Successfully generated Test_Document.docx"].
Proof. intros H. rewrite (run_completes _ _ H). split; reflexivity. Qed.

Lemma literal_texts_witness :
  exit_status (run good_env ∅) = 0 ∧
  out (world_of (run good_env ∅))
    = ["Successfully generated Test_Document.docx"].
Proof.
  split; [vm_compute; reflexivity |].
  apply (literal_texts good_env ∅). vm_compute; reflexivity.
Defined.

(** C9.  The two strokes of the saved icon are a horizontal segment from
    (20, 50) to (80, 50) and a vertical segment from (50, 20) to (50, 80),
    both in colour (255, 255, 0) and of width 5.  They are perpendicular,
    meet in the single point (50, 50), which is the centre of the canvas and
    the midpoint of both, and have the same length: a symmetric plus sign. *)
Theorem icon_plus_sign env fs0 :
  EImageSave icon_path true ∈ trace (world_of (run env fs0)) →
  ∃ im h v,
    fs (world_of (run env fs0)) !! icon_path = Some (FImage im) ∧
    im_strokes im = [h; v] ∧
    stroke_xy h = (20, 50, 80, 50) ∧ stroke_xy v = (50, 20, 50, 80) ∧
    stroke_fill h = (255, 255, 0) ∧ stroke_fill v = (255, 255, 0) ∧
    stroke_width h = 5 ∧ stroke_width v = 5 ∧
    horizontal (stroke_xy h) ∧ vertical (stroke_xy v) ∧
    perpendicular (stroke_xy h) (stroke_xy v) ∧
    (∀ pt, on_segment (stroke_xy h) pt = true ∧
           on_segment (stroke_xy v) pt = true ↔ pt = (50, 50)) ∧
    im_size im = (2 * 50, 2 * 50) ∧
    midpoint2 (stroke_xy h) = im_size im ∧
    midpoint2 (stroke_xy v) = im_size im ∧
    length2 (stroke_xy h) = length2 (stroke_xy v).
Proof.
  intros H%icon_on_disk. eexists icon, _, _.
  split_and!; [exact H | reflexivity .. | | | | | | | |];
    try reflexivity; try (by vm_compute).
  intros [x y]. cbn. split.
  - intros [Hh Hv].
    repeat (apply andb_prop in Hh as [Hh ?]).
    repeat (apply andb_prop in Hv as [Hv ?]).
    f_equal; lia.
  - by intros [= -> ->].
Qed.

Lemma icon_plus_sign_witness :
  EImageSave icon_path true ∈ trace (world_of (run good_env ∅)) ∧
  ∃ im h v,
    fs (world_of (run good_env ∅)) !! icon_path = Some (FImage im) ∧
    im_strokes im = [h; v] ∧
    perpendicular (stroke_xy h) (stroke_xy v).
Proof.
  assert (EImageSave icon_path true ∈ trace (world_of (run good_env ∅)))
    as Hin by (vm_compute; constructor).
  split; [exact Hin |].
  destruct (icon_plus_sign good_env ∅ Hin)
    as (im & h & v & Hf & Hs & _ & _ & _ & _ & _ & _ & _ & _ & Hp & _).
  exists im, h, v. split_and!; [exact Hf | exact Hs | exact Hp].
Defined.

(** A run on a template without 'List Bullet' does reach the invalid-style
    failure: the precondition of the next theorem is not idle. *)
Example bare_template_aborts :
  ∃ w, run bare_env ∅ = Raised (KeyError "List Bullet") w.
Proof. eexists. vm_compute. reflexivity. Qed.

(** C10, as first stated, fails.  The style names looked up in a run are
    not only 'List Bullet' and 'Normal', and defining those two does not
    keep a run from the invalid-style exception: on a template with just
    the two, the first heading looks up 'Title' and the run ends there. *)
Lemma two_styles_not_enough :
  ¬ (∀ env fs0 s found,
       EStyleLookup s found ∈ trace (world_of (run env fs0)) →
       s = "List Bullet" ∨ s = "Normal") ∧
  ¬ (∀ env fs0,
       "List Bullet" ∈ template_styles env →
       "Normal" ∈ template_styles env →
       ∀ s w, run env fs0 ≠ Raised (KeyError s) w).
Proof.
  split.
  - intros H.
    destruct (H two_styles_env ∅ "Title" false) as [? | ?];
      [| discriminate ..].
    apply list_elem_of_lookup. exists 3%nat. vm_compute. reflexivity.
  - intros H.
    eapply (H two_styles_env ∅); [| | vm_compute; reflexivity].
    all: apply (bool_decide_unpack _); vm_compute; exact I.
Qed.

(** C10, amended.  Every style name looked up, in any run, is one of
    'Title' and 'Heading 1' (which the library derives from the heading
    levels 0 and 1) and 'List Bullet' and 'Normal' (which the script
    names); and when the default template defines all four, no run ends in
    the invalid-style exception and no style lookup fails. *)
Theorem styles_are_builtin env fs0 :
  (∀ s found,
     EStyleLookup s found ∈ trace (world_of (run env fs0)) →
     s = "Title" ∨ s = "Heading 1" ∨ s = "List Bullet" ∨ s = "Normal") ∧
  ("Title" ∈ template_styles env →
   "Heading 1" ∈ template_styles env →
   "List Bullet" ∈ template_styles env →
   "Normal" ∈ template_styles env →
   (∀ s w, run env fs0 ≠ Raised (KeyError s) w) ∧
   (∀ s, EStyleLookup s false ∉ trace (world_of (run env fs0)))).
Proof.
  split.
  - intros s found [j Hj]%list_elem_of_lookup. revert Hj.
    by_ends env fs0; cbn; intros Hj; scan j Hj.
    all: injection Hj as <- <-; auto.
  - intros Ht Hh Hb Hn. split.
    + intros s w. by_ends env fs0; done.
    + intros s [j Hj]%list_elem_of_lookup. revert Hj.
      by_ends env fs0; cbn; intros Hj; try done; by scan j Hj.
Qed.

Lemma styles_are_builtin_witness :
  "Title" ∈ template_styles good_env ∧
  "Heading 1" ∈ template_styles good_env ∧
  "List Bullet" ∈ template_styles good_env ∧
  "Normal" ∈ template_styles good_env ∧
  ∀ s w, run good_env ∅ ≠ Raised (KeyError s) w.
Proof.
  assert ("Title" ∈ template_styles good_env) as Ht
    by (apply (bool_decide_unpack _); vm_compute; exact I).
  assert ("Heading 1" ∈ template_styles good_env) as Hh
    by (apply (bool_decide_unpack _); vm_compute; exact I).
  assert ("List Bullet" ∈ template_styles good_env) as Hb
    by (apply (bool_decide_unpack _); vm_compute; exact I).
  assert ("Normal" ∈ template_styles good_env) as Hn
    by (apply (bool_decide_unpack _); vm_compute; exact I).
  split_and!; [exact Ht | exact Hh | exact Hb | exact Hn |].
  exact (proj1 (proj2 (styles_are_builtin good_env ∅) Ht Hh Hb Hn)).
Defined.

(** ** Further properties of the script *)

(** X1.  The imports come first: when one of the three modules is missing
    the run ends in [ModuleNotFoundError] for the first missing one, in the
    world it started in: no file written, no line printed, no object
    created, no event. *)
Theorem missing_module_no_effect env fs0 :
  installed env "docx" = false ∨ installed env "docx.shared" = false ∨
    installed env "PIL" = false →
  ∃ m, run env fs0 = Raised (ModuleNotFoundError m) (init fs0) ∧
       installed env m = false ∧
       (m = "docx" ∨
        m = "docx.shared" ∧ installed env "docx" = true ∨
        m = "PIL" ∧ installed env "docx" = true ∧
          installed env "docx.shared" = true).
Proof.
  intros Hm.
  by_ends env fs0; try (destruct Hm as [? | [? | ?]]; congruence).
  - exists "docx". split_and!; [done | done | by left].
  - exists "docx.shared". split_and!; [done | done | by right; left].
  - exists "PIL". split_and!; [done | done | by right; right].
Qed.

Lemma missing_module_no_effect_witness :
  ∃ m, run no_pil_env stale_fs
         = Raised (ModuleNotFoundError m) (init stale_fs) ∧
       installed no_pil_env m = false.
Proof.
  destruct (missing_module_no_effect no_pil_env stale_fs) as (m & Hr & Hi & _);
    [right; right; vm_compute; reflexivity |].
  exists m. split; [exact Hr | exact Hi].
Defined.

(** X2.  Whether a run completes is decided by the environment alone, never
    by what the directory holds: it completes exactly when the three modules
    are installed, both paths can be written and the template defines
    'Title', 'Heading 1', 'List Bullet' and 'Normal'. *)
Theorem completes_iff_suitable env fs0 :
  exit_status (run env fs0) = 0 ↔ suitable env.
Proof.
  unfold suitable. by_ends env fs0; cbn; split; try discriminate; try done.
  all: intros (? & ? & ? & ? & ? & ? & ? & ? & ?); congruence || done.
Qed.

Lemma completes_iff_suitable_witness :
  suitable good_env ∧ exit_status (run good_env stale_fs) = 0.
Proof.
  assert (suitable good_env) as Hs.
  { unfold suitable. split_and!; try reflexivity;
      apply (bool_decide_unpack _); vm_compute; exact I. }
  split; [exact Hs |].
  exact (proj2 (completes_iff_suitable good_env stale_fs) Hs).
Defined.

(** X3.  A run that fails leaves no document behind: the only path whose
    content can differ from before is the icon, so the document path holds
    what it held, and the file system is either untouched or the old one
    with the icon written. *)
Theorem failed_run_files env fs0 e w :
  run env fs0 = Raised e w →
  (∀ p, p ≠ icon_path → fs w !! p = fs0 !! p) ∧
  fs w !! file_name = fs0 !! file_name ∧
  (fs w = fs0 ∧ writes (trace w) = [] ∨
   fs w = <[icon_path := FImage icon]> fs0 ∧ writes (trace w) = [icon_path]).
Proof.
  by_ends env fs0; intros [= <- <-]; cbn.
  1-4: split_and!; [done | done | by left].
  all: split_and!;
    [ intros p Hp; apply lookup_insert_ne; congruence
    | apply lookup_insert_ne; discriminate
    | by right ].
Qed.

Lemma failed_run_files_witness :
  run icon_only_env stale_fs
    = Raised (PermissionError file_name)
        (world_of (run icon_only_env stale_fs)) ∧
  fs (world_of (run icon_only_env stale_fs)) !! file_name
    = Some (FOther "older").
Proof.
  assert (run icon_only_env stale_fs
          = Raised (PermissionError file_name)
              (world_of (run icon_only_env stale_fs))) as Hr
    by (vm_compute; reflexivity).
  split; [exact Hr |].
  destruct (failed_run_files icon_only_env stale_fs _ _ Hr) as (_ & Hf & _).
  rewrite Hf. vm_compute; reflexivity.
Defined.



(** X5.  What no run does, whatever the directory held before, a stale or
    unreadable file under the icon's name included: it never fails on a
    heading level, never fails to find or to decode the picture, and never
    uses a reference to an object that is not there. *)
Theorem never_fails_inside env fs0 w :
  (∀ lv, run env fs0 ≠ Raised (ValueError lv) w) ∧
  (∀ p, run env fs0 ≠ Raised (FileNotFoundError p) w) ∧
  (∀ p, run env fs0 ≠ Raised (UnrecognizedImageError p) w) ∧
  run env fs0 ≠ Raised Dangling w.
Proof.
  split_and!; intros; intros Hr;
    destruct (run_exceptions _ _ _ _ Hr)
      as [(? & ? & _) | [(? & ? & _) | (? & ? & _)]];
    discriminate.
Qed.

(** X6.  Nothing is drawn after the icon is saved and nothing is appended
    after the document is saved: once the icon is written, in any run, its
    file holds the one live image as it is at the end of the run; and after
    a complete run the document file holds the body of the one live
    document. *)
Theorem files_hold_final_objects env fs0 :
  (EImageSave icon_path true ∈ trace (world_of (run env fs0)) →
   ∃ im, images (world_of (run env fs0)) = [im] ∧
         fs (world_of (run env fs0)) !! icon_path = Some (FImage im)) ∧
  (exit_status (run env fs0) = 0 →
   ∃ d, docs (world_of (run env fs0)) = [d] ∧
        fs (world_of (run env fs0)) !! file_name
          = Some (FDocx (doc_body d))).
Proof.
  split.
  - intros Hin. pose proof (icon_on_disk _ _ Hin) as Hf.
    exists icon. split; [| exact Hf].
    apply list_elem_of_lookup in Hin as [j Hj]. clear Hf. revert Hj.
    by_ends env fs0; cbn; intros Hj; try done; by scan j Hj.
  - intros H. rewrite (run_completes _ _ H). cbn. eexists. split; [done |].
    apply lookup_insert_eq.
Qed.

Lemma files_hold_final_objects_witness :
  EImageSave icon_path true ∈ trace (world_of (run icon_only_env stale_fs)) ∧
  ∃ im, images (world_of (run icon_only_env stale_fs)) = [im] ∧
        fs (world_of (run icon_only_env stale_fs)) !! icon_path
          = Some (FImage im).
Proof.
  assert (EImageSave icon_path true
            ∈ trace (world_of (run icon_only_env stale_fs))) as Hin
    by (vm_compute; constructor).
  split; [exact Hin |].
  exact (proj1 (files_hold_final_objects icon_only_env stale_fs) Hin).
Defined.

(** X7.  When the icon cannot be written the run stops there, whatever else
    is wrong or right with the environment: [PermissionError] on the icon's
    path, the directory as it was, and no document object ever created. *)
Theorem icon_refused_stops env fs0 :
  installed env "docx" = true →
  installed env "docx.shared" = true →
  installed env "PIL" = true →
  can_write env icon_path = false →
  ∃ w, run env fs0 = Raised (PermissionError icon_path) w ∧
       fs w = fs0 ∧ out w = [] ∧ docs w = [] ∧
       trace w = [EImageSave icon_path false].
Proof.
  intros H1 H2 H3 H4. by_ends env fs0; try congruence.
  eexists. split; [reflexivity |]. done.
Qed.

Lemma icon_refused_stops_witness :
  ∃ w, run readonly_env stale_fs = Raised (PermissionError icon_path) w ∧
       fs w = stale_fs.
Proof.
  destruct (icon_refused_stops readonly_env stale_fs)
    as (w & Hr & Hf & _); try (vm_compute; reflexivity).
  exists w. split; [exact Hr | exact Hf].
Defined.
